(** * Hand-off of the [FromIterator] implementors fragment

    Source: [doc/implementors/core/iter/trait.FromIterator.js].  The file is
    one immediately invoked function: it builds the object [implementors],
    reads [window.register_implementors], and either calls it with the
    object or stores the object in [window.pending_implementors]. *)

From Stdlib Require Import ZArith.
From stdpp Require Import base strings gmap list.

Local Open Scope string_scope.

(** ** Script values *)

(** A function of the page is known by a reference; what calling it does is
    given by the host (see [Section Host]). *)
Definition fn_ref : Type := nat.

#[local] Set Warnings "-register-all".

(** The values a property of [window] may hold.  Numbers are integers or
    [NaN]; objects and arrays are kept by value, since the fragment never
    touches [implementors] again after handing it off. *)
Inductive value : Type :=
  | VUndefined
  | VNull
  | VBool (b : bool)
  | VNumber (n : Z)
  | VNaN
  | VString (s : string)
  | VFunction (f : fn_ref)
  | VArray (elems : list value)
  | VObject (props : gmap string value).

Arguments VNumber n%_Z.

(** The truth test applied by [if (...)]. *)
Definition to_boolean (v : value) : bool :=
  match v with
  | VUndefined | VNull | VNaN => false
  | VBool b => b
  | VNumber n => negb (n =? 0)%Z
  | VString s => negb (String.eqb s "")
  | VFunction _ | VArray _ | VObject _ => true
  end.

(** ** The global object *)

(** Properties of [window] are plain data properties. *)
Abbreviation global := (gmap string value).

Definition register_implementors : string := "register_implementors".
Definition pending_implementors : string := "pending_implementors".

(** Reading a property that is not there gives [undefined]. *)
Definition read_prop (w : global) (k : string) : value :=
  default VUndefined (w !! k).

(** ** The literal of the fragment *)

Definition ndarray_impl : string :=
  "impl&lt;A, S&gt; <a class='trait' href='https://doc.rust-lang.org/nightly/core/iter/trait.FromIterator.html' title='core::iter::FromIterator'>FromIterator</a>&lt;A&gt; for <a class='struct' href='ndarray/struct.ArrayBase.html' title='ndarray::ArrayBase'>ArrayBase</a>&lt;S, <a class='type' href='ndarray/type.Ix.html' title='ndarray::Ix'>Ix</a>&gt; <span class='where'>where S: <a class='trait' href='ndarray/trait.DataOwned.html' title='ndarray::DataOwned'>DataOwned</a>&lt;Elem=A&gt;</span>".

Definition sprs_impl : string :=
  "impl&lt;A, S&gt; <a class='trait' href='https://doc.rust-lang.org/nightly/core/iter/trait.FromIterator.html' title='core::iter::FromIterator'>FromIterator</a>&lt;A&gt; for <a class='struct' href='ndarray/struct.ArrayBase.html' title='ndarray::ArrayBase'>ArrayBase</a>&lt;S, <a class='primitive' href='https://doc.rust-lang.org/nightly/std/primitive.usize.html'>usize</a>&gt; <span class='where'>where S: <a class='trait' href='ndarray/data_traits/trait.DataOwned.html' title='ndarray::data_traits::DataOwned'>DataOwned</a>&lt;Elem=A&gt;</span>".

(** [obj[k] = v] on an object kept by value. *)
Definition obj_set (o : gmap string value) (k : string) (v : value)
  : gmap string value := <[k:=v]> o.

(** Lines 1-2: [var implementors = {}] followed by the three assignments, in
    source order.  The array literals end in a comma, which adds no
    element. *)
Definition implementors : gmap string value :=
  let implementors := ∅ in
  let implementors := obj_set implementors "libc" (VArray []) in
  let implementors := obj_set implementors "ndarray" (VArray [VString ndarray_impl]) in
  let implementors := obj_set implementors "sprs" (VArray [VString sprs_impl]) in
  implementors.

(** ** Effects of a run *)

(** What the script itself does to the page, in program order. *)
Inductive event : Type :=
  | Read (k : string)
  | Write (k : string) (v : value)
  | Call (f : fn_ref) (args : list value).

(** [NotAFunction v]: the [TypeError] of applying [v], which is no function.
    [Raised v]: an exception that left a called function. *)
Inductive exn : Type :=
  | NotAFunction (v : value)
  | Raised (v : value).

Inductive completion (A : Type) : Type :=
  | Normal (a : A)
  | Throw (e : exn).
Arguments Normal {A} a.
Arguments Throw {A} e.

(** How a call of a page function ends. *)
Inductive host_result : Type :=
  | Returned (v : value)
  | Threw (v : value).

Record page : Type := Page { window : global; trace : list event }.

Definition js (A : Type) : Type := page → completion A * page.

#[export] Instance js_ret : MRet js := λ A a p, (Normal a, p).

(** An exception skips the rest; what was done to the page stays done. *)
#[export] Instance js_bind : MBind js := λ A B k m p,
  match m p with
  | (Normal a, p') => k a p'
  | (Throw e, p') => (Throw e, p')
  end.

Definition log (ev : event) (p : page) : page :=
  Page (window p) (trace p ++ [ev]).

(** [window.k] *)
Definition get_prop (k : string) : js value := λ p,
  (Normal (read_prop (window p) k), log (Read k) p).

(** [window.k = v] *)
Definition set_prop (k : string) (v : value) : js value := λ p,
  (Normal v, log (Write k v) (Page (<[k:=v]> (window p)) (trace p))).

Definition is_function (v : value) : bool :=
  match v with VFunction _ => true | _ => false end.

Section Host.

(** The functions of the page live outside this file: [host f args w] is
    how the call of [f] on [args] ends when started in [w], with the
    global object it leaves. *)
Variable host : fn_ref → list value → global → host_result * global.

(** [callee(args)] *)
Definition call (callee : value) (args : list value) : js value := λ p,
  match callee with
  | VFunction f =>
      let p := log (Call f args) p in
      match host f args (window p) with
      | (Returned r, w') => (Normal r, Page w' (trace p))
      | (Threw e, w') => (Throw (Raised e), Page w' (trace p))
      end
  | _ => (Throw (NotAFunction callee), p)
  end.

(** Lines 4-8.  The function has no [return]: its value is [undefined]. *)
Definition fragment : js value :=
  present ← get_prop register_implementors;
  if to_boolean present then
    callee ← get_prop register_implementors;
    _ ← call callee [VObject implementors];
    mret VUndefined
  else
    _ ← set_prop pending_implementors (VObject implementors);
    mret VUndefined.

(** One run of the script on a page whose global object is [w]. *)
Definition run (w : global) : completion value * page :=
  fragment (Page w []).

Definition outcome (w : global) : completion value := (run w).1.
Definition final (w : global) : global := window (run w).2.
Definition actions (w : global) : list event := trace (run w).2.

(** The same run, told as a relation: one rule per way through lines
    4-8. *)
Inductive hands_off (w : global)
  : list event → completion value → global → Prop :=
  | hands_off_call f r w' :
      read_prop w register_implementors = VFunction f →
      host f [VObject implementors] w = (Returned r, w') →
      hands_off w
        [Read register_implementors; Read register_implementors;
         Call f [VObject implementors]]
        (Normal VUndefined) w'
  | hands_off_call_throws f e w' :
      read_prop w register_implementors = VFunction f →
      host f [VObject implementors] w = (Threw e, w') →
      hands_off w
        [Read register_implementors; Read register_implementors;
         Call f [VObject implementors]]
        (Throw (Raised e)) w'
  | hands_off_type_error :
      to_boolean (read_prop w register_implementors) = true →
      is_function (read_prop w register_implementors) = false →
      hands_off w
        [Read register_implementors; Read register_implementors]
        (Throw (NotAFunction (read_prop w register_implementors))) w
  | hands_off_stash :
      to_boolean (read_prop w register_implementors) = false →
      hands_off w
        [Read register_implementors;
         Write pending_implementors (VObject implementors)]
        (Normal VUndefined)
        (<[pending_implementors:=VObject implementors]> w).

End Host.

(** ** Reading a trace *)

Definition calls (tr : list event) : list (fn_ref * list value) :=
  omap (λ ev, match ev with Call f args => Some (f, args) | _ => None end) tr.

Definition writes (tr : list event) : list (string * value) :=
  omap (λ ev, match ev with Write k v => Some (k, v) | _ => None end) tr.

Definition reads (tr : list event) : list string :=
  omap (λ ev, match ev with Read k => Some k | _ => None end) tr.

(** ** States of the controller reference *)

(** Nothing truthy is stored under [register_implementors]: the property
    is missing, or holds a falsy value. *)
Definition no_controller (w : global) : Prop :=
  to_boolean (read_prop w register_implementors) = false.

(** A function is stored under [register_implementors]. *)
Definition controller_is (w : global) (f : fn_ref) : Prop :=
  w !! register_implementors = Some (VFunction f).

(** Missing, falsy, or a function. *)
Definition reference_ok (w : global) : bool :=
  negb (to_boolean (read_prop w register_implementors))
  || is_function (read_prop w register_implementors).

(** Hosts used to run the script on concrete pages. *)
Definition host_quiet : fn_ref → list value → global → host_result * global :=
  λ _ _ w, (Returned VUndefined, w).

Definition host_throwing : fn_ref → list value → global → host_result * global :=
  λ _ _ w, (Threw (VString "render failed"), w).

(** A controller that keeps what it last received under [last_received]. *)
Definition host_recording : fn_ref → list value → global → host_result * global :=
  λ _ args w, (Returned VUndefined, <["last_received":=VArray args]> w).

(** A controller that takes itself off the page once called. *)
Definition host_unregistering : fn_ref → list value → global → host_result * global :=
  λ _ _ w, (Returned VUndefined, delete register_implementors w).



(** Every value the trace passes to a function or stores. *)
Definition handed_off (tr : list event) : list value :=
  tr ≫= λ ev,
    match ev with
    | Read _ => []
    | Write _ v => [v]
    | Call _ args => args
    end.

(** The call of the stored function, if one is stored, returns. *)
Definition call_returns
    (host : fn_ref → list value → global → host_result * global)
    (w : global) : bool :=
  match read_prop w register_implementors with
  | VFunction f =>
      match (host f [VObject implementors] w).1 with
      | Returned _ => true
      | Threw _ => false
      end
  | _ => true
  end.

(** * Properties *)

(** ** The three ways through the script *)

Ltac run_script :=
  cbv beta iota zeta delta
    [run outcome final actions fragment mbind js_bind mret js_ret
     get_prop set_prop call log window trace fst snd app].

Lemma names_differ : register_implementors ≠ pending_implementors.
Proof. discriminate. Qed.

Lemma run_stash host w :
  no_controller w →
  run host w =
    (Normal VUndefined,
     Page (<[pending_implementors:=VObject implementors]> w)
          [Read register_implementors;
           Write pending_implementors (VObject implementors)]).
Proof. unfold no_controller. intros H. run_script. by rewrite H. Qed.

Lemma run_call host w f :
  read_prop w register_implementors = VFunction f →
  run host w =
    let tr := [Read register_implementors; Read register_implementors;
               Call f [VObject implementors]] in
    match host f [VObject implementors] w with
    | (Returned _, w') => (Normal VUndefined, Page w' tr)
    | (Threw e, w') => (Throw (Raised e), Page w' tr)
    end.
Proof.
  intros H. run_script. rewrite H. cbn [to_boolean]. rewrite H.
  by destruct (host f [VObject implementors] w) as [[r|e] w'].
Qed.

Lemma run_type_error host w :
  to_boolean (read_prop w register_implementors) = true →
  is_function (read_prop w register_implementors) = false →
  run host w =
    (Throw (NotAFunction (read_prop w register_implementors)),
     Page w [Read register_implementors; Read register_implementors]).
Proof.
  intros Ht Hf. run_script. rewrite Ht.
  by destruct (read_prop w register_implementors).
Qed.

(** The reference is in exactly one of three states. *)
Lemma reference_cases w :
  no_controller w
  ∨ (∃ f, read_prop w register_implementors = VFunction f)
  ∨ (to_boolean (read_prop w register_implementors) = true
     ∧ is_function (read_prop w register_implementors) = false).
Proof.
  unfold no_controller.
  destruct (to_boolean (read_prop w register_implementors)) eqn:Ht; [|by left].
  right. destruct (read_prop w register_implementors) eqn:Hv;
    try (right; by split); left; eauto.
Qed.

Lemma reference_ok_cases w :
  reference_ok w = true →
  no_controller w ∨ ∃ f, read_prop w register_implementors = VFunction f.
Proof.
  unfold reference_ok. intros H.
  destruct (reference_cases w) as [?|[?|[Ht Hf]]]; [by left|by right|].
  by rewrite Ht, Hf in H.
Qed.

Lemma controller_is_read w f :
  controller_is w f → read_prop w register_implementors = VFunction f.
Proof. unfold controller_is, read_prop. by intros ->. Qed.

(** The relation and the function tell the same run. *)
Lemma run_hands_off host w :
  hands_off host w (actions host w) (outcome host w) (final host w).
Proof.
  unfold actions, outcome, final.
  destruct (reference_cases w) as [H|[[f H]|[Ht Hf]]].
  - rewrite (run_stash _ _ H). by constructor.
  - rewrite (run_call _ _ _ H). cbv zeta.
    destruct (host f [VObject implementors] w) as [[r|e] w'] eqn:Hh.
    + by eapply hands_off_call.
    + by eapply hands_off_call_throws.
  - rewrite (run_type_error _ _ Ht Hf). by constructor.
Qed.

Lemma hands_off_run host w tr c w' :
  hands_off host w tr c w' →
  actions host w = tr ∧ outcome host w = c ∧ final host w = w'.
Proof.
  unfold actions, outcome, final.
  destruct 1 as [f r w' H Hh|f e w' H Hh|Ht Hf|H].
  - by rewrite (run_call _ _ _ H), Hh.
  - by rewrite (run_call _ _ _ H), Hh.
  - by rewrite (run_type_error _ _ Ht Hf).
  - by rewrite (run_stash _ _ H).
Qed.

(** A relation with one derivation per page: two runs from the same global
    object agree on everything. *)
Lemma hands_off_functional host w tr1 c1 w1 tr2 c2 w2 :
  hands_off host w tr1 c1 w1 →
  hands_off host w tr2 c2 w2 →
  tr1 = tr2 ∧ c1 = c2 ∧ w1 = w2.
Proof.
  intros H1 H2.
  inversion H1 as [f r v Hr Hh|f e v Hr Hh|Ht Hf|Hn]; subst;
    inversion H2 as [f' r' v' Hr' Hh'|f' e' v' Hr' Hh'|Ht' Hf'|Hn']; subst;
    unfold no_controller in *;
    try (rewrite Hr in *; discriminate);
    try (rewrite Hr' in *; discriminate);
    try congruence;
    try done.
  - rewrite Hr in Hr'. injection Hr' as <-. rewrite Hh in Hh'.
    by injection Hh' as <- <-.
  - rewrite Hr in Hr'. injection Hr' as <-. rewrite Hh in Hh'.
    by injection Hh' as <- <-.
Qed.

(** The trace depends on the stored reference alone. *)
Lemma same_reference_same_actions host1 host2 w1 w2 :
  read_prop w1 register_implementors = read_prop w2 register_implementors →
  actions host1 w1 = actions host2 w2.
Proof.
  intros Heq. unfold actions.
  destruct (reference_cases w1) as [H|[[f H]|[Ht Hf]]].
  - rewrite (run_stash _ _ H).
    unfold no_controller in H. rewrite Heq in H. by rewrite (run_stash _ _ H).
  - rewrite (run_call _ _ _ H). rewrite Heq in H. rewrite (run_call _ _ _ H).
    cbv zeta.
    by destruct (host1 _ _ w1) as [[?|?] ?], (host2 _ _ w2) as [[?|?] ?].
  - rewrite (run_type_error _ _ Ht Hf). rewrite Heq in Ht, Hf.
    by rewrite (run_type_error _ _ Ht Hf).
Qed.

(** ** Hand-off: one path per run *)




(** C2, as stated, fails when presence is what line 4 tests: with the
    number [1] stored under [register_implementors] the reference counts as
    present, and the run calls nothing. *)
Lemma direct_call_fails_on_truthy_non_function :
  let w : global := {[ register_implementors := VNumber 1 ]} in
  to_boolean (read_prop w register_implementors) = true
  ∧ calls (actions host_recording w) = []
  ∧ ¬ (∃ f, calls (actions host_recording w) = [(f, [VObject implementors])])
  ∧ final host_recording w !! "last_received" = None.
Proof.
  cbv zeta.
  assert (Hr : read_prop ({[register_implementors := VNumber 1]} : global)
                 register_implementors = VNumber 1).
  { unfold read_prop. by rewrite lookup_singleton_eq. }
  unfold actions, final. rewrite run_type_error; rewrite Hr; try done.
  cbn. split_and!; [done|done|by intros [f ?]|done].
Qed.

(** C2 (amended): when a function is stored under [register_implementors],
    the run calls it exactly once, with the constructed object as the only
    argument, and writes nothing, the slot included.  The function is really
    applied to that argument: the run leaves the global object that call
    leaves and ends as that call ends. *)
Theorem direct_call_once host w f :
  controller_is w f →
  calls (actions host w) = [(f, [VObject implementors])]
  ∧ writes (actions host w) = []
  ∧ final host w = (host f [VObject implementors] w).2
  ∧ outcome host w
    = match (host f [VObject implementors] w).1 with
      | Returned _ => Normal VUndefined
      | Threw e => Throw (Raised e)
      end.
Proof.
  intros H%controller_is_read. unfold actions, final, outcome.
  rewrite (run_call _ _ _ H). cbv zeta.
  by destruct (host f [VObject implementors] w) as [[?|?] ?].
Qed.

Lemma direct_call_once_witness :
  let w : global := {[ register_implementors := VFunction 7 ]} in
  controller_is w 7
  ∧ calls (actions host_recording w) = [(7, [VObject implementors])]
  ∧ writes (actions host_recording w) = []
  ∧ final host_recording w !! "last_received"
    = Some (VArray [VObject implementors])
  ∧ outcome host_recording w = Normal VUndefined.
Proof.
  cbv zeta.
  assert (H : controller_is {[ register_implementors := VFunction 7 ]} 7)
    by (vm_compute; reflexivity).
  destruct (direct_call_once host_recording _ 7 H) as (Hc & Hw & Hf & Ho).
  split; [exact H|]. split; [exact Hc|]. split; [exact Hw|].
  split; [|exact Ho].
  rewrite Hf. apply lookup_insert_eq.
Defined.

(** What a recording controller last received is the constructed object. *)
Lemma direct_call_recorded w f :
  controller_is w f →
  final host_recording w !! "last_received"
  = Some (VArray [VObject implementors]).
Proof.
  intros H%controller_is_read. unfold final.
  rewrite (run_call _ _ _ H). cbn. by rewrite lookup_insert_eq.
Qed.

(** C3: when nothing truthy is stored under [register_implementors], the
    slot holds the constructed object after the run and no function was
    called. *)
Theorem deferred_stash host w :
  no_controller w →
  final host w !! pending_implementors = Some (VObject implementors)
  ∧ calls (actions host w) = [].
Proof.
  intros H. unfold final, actions. rewrite (run_stash _ _ H). cbn.
  by rewrite lookup_insert_eq.
Qed.

Lemma deferred_stash_witness :
  no_controller ∅
  ∧ final host_quiet ∅ !! pending_implementors = Some (VObject implementors)
  ∧ calls (actions host_quiet ∅) = [].
Proof.
  assert (H : no_controller ∅) by (vm_compute; reflexivity).
  split; [exact H|].
  exact (deferred_stash host_quiet ∅ H).
Defined.

(** ** The constructed object *)

Lemma handed_off_values host w :
  handed_off (actions host w) = [VObject implementors]
  ∨ handed_off (actions host w) = [].
Proof.
  unfold actions.
  destruct (reference_cases w) as [H|[[f H]|[Ht Hf]]].
  - rewrite (run_stash _ _ H). by left.
  - rewrite (run_call _ _ _ H). cbv zeta. left.
    by destruct (host f [VObject implementors] w) as [[?|?] ?].
  - rewrite (run_type_error _ _ Ht Hf). by right.
Qed.

(** C4: the object holds exactly what the three assignments put into the
    empty one: its keys are [libc], [ndarray] and [sprs] and no other;
    [libc] holds the empty array, which is not the same as holding nothing;
    [ndarray] and [sprs] hold arrays of one descriptor each.  This object is
    what a run hands over: it is the one value passed on whenever the stored
    reference is missing, falsy or a function; it is what the slot holds
    after a stash, and what the stored function is applied to, the run
    leaving the global object that application leaves. *)
Theorem implementors_shape host w :
  dom implementors = ({[ "libc"; "ndarray"; "sprs" ]} : gset string)
  ∧ size implementors = 3
  ∧ (∀ k v, implementors !! k = Some v →
       (k, v) ∈ [("libc", VArray []);
                 ("ndarray", VArray [VString ndarray_impl]);
                 ("sprs", VArray [VString sprs_impl])])
  ∧ implementors !! "libc" = Some (VArray [])
  ∧ implementors !! "libc" ≠ None
  ∧ implementors !! "ndarray" = Some (VArray [VString ndarray_impl])
  ∧ implementors !! "sprs" = Some (VArray [VString sprs_impl])
  ∧ handed_off (actions host w)
    = (if reference_ok w then [VObject implementors] else [])
  ∧ match read_prop w register_implementors with
    | VFunction f =>
        calls (actions host w) = [(f, [VObject implementors])]
        ∧ final host w = (host f [VObject implementors] w).2
    | v =>
        if to_boolean v then final host w = w
        else final host w !! pending_implementors = Some (VObject implementors)
    end.
Proof.
  assert (Hrun :
    handed_off (actions host w)
    = (if reference_ok w then [VObject implementors] else [])
    ∧ match read_prop w register_implementors with
      | VFunction f =>
          calls (actions host w) = [(f, [VObject implementors])]
          ∧ final host w = (host f [VObject implementors] w).2
      | v =>
          if to_boolean v then final host w = w
          else final host w !! pending_implementors
               = Some (VObject implementors)
      end).
  { unfold actions, final, reference_ok.
    destruct (reference_cases w) as [H|[[f H]|[Ht Hf]]].
    - rewrite (run_stash _ _ H). unfold no_controller in H. rewrite H. cbn.
      split; [done|].
      destruct (read_prop w register_implementors);
        cbn [to_boolean] in H |- *; try discriminate; rewrite ?H;
        by rewrite lookup_insert_eq.
    - rewrite (run_call _ _ _ H), H. cbv zeta.
      by destruct (host f [VObject implementors] w) as [[?|?] ?].
    - rewrite (run_type_error _ _ Ht Hf), Ht, Hf. cbn.
      split; [done|].
      destruct (read_prop w register_implementors);
        cbn [to_boolean] in Ht |- *; try discriminate; by rewrite ?Ht. }
  destruct Hrun as [Hhanded Hstate].
  unfold implementors at 1 2 3 4 5 6 7, obj_set. cbv zeta.
  split_and!.
  - rewrite !dom_insert_L, dom_empty_L. set_solver.
  - rewrite !map_size_insert_None, map_size_empty; [done|..];
      rewrite ?lookup_insert_ne by done; apply lookup_empty.
  - intros k v. rewrite !lookup_insert_Some, lookup_empty.
    intros [[<- <-]|[_ [[<- <-]|[_ [[<- <-]|[_ ?]]]]]]; [| | |done];
      rewrite !elem_of_cons; auto.
  - rewrite !lookup_insert_ne by done. by rewrite lookup_insert_eq.
  - rewrite !lookup_insert_ne by done. by rewrite lookup_insert_eq.
  - rewrite lookup_insert_ne by done. by rewrite lookup_insert_eq.
  - by rewrite lookup_insert_eq.
  - exact Hhanded.
  - exact Hstate.
Qed.

(** ** The slot *)

(** C5: when nothing truthy is stored under [register_implementors], the
    write replaces whatever the slot held: the global object after the run
    is the initial one with the slot set to the constructed object, the
    same as if the slot had been empty before; the run does nothing but one
    read and that one write, and ends normally. *)
Theorem stash_overwrites host w (old : value) :
  no_controller w →
  w !! pending_implementors = Some old →
  final host w = <[pending_implementors:=VObject implementors]> w
  ∧ final host w !! pending_implementors = Some (VObject implementors)
  ∧ final host w = final host (delete pending_implementors w)
  ∧ actions host w
    = [Read register_implementors;
       Write pending_implementors (VObject implementors)]
  ∧ outcome host w = Normal VUndefined.
Proof.
  intros H Hold.
  assert (Hd : no_controller (delete pending_implementors w)).
  { unfold no_controller, read_prop in *.
    by rewrite lookup_delete_ne by (symmetry; apply names_differ). }
  unfold final, actions, outcome.
  rewrite (run_stash _ _ H), (run_stash _ _ Hd). cbn.
  repeat split; try done.
  - by rewrite lookup_insert_eq.
  - by rewrite insert_delete_eq.
Qed.

Lemma stash_overwrites_witness :
  let old := VObject {[ "alloc" := VArray [] ]} in
  let w : global := {[ pending_implementors := old ]} in
  no_controller w
  ∧ w !! pending_implementors = Some old
  ∧ final host_quiet w !! pending_implementors = Some (VObject implementors)
  ∧ final host_quiet w = final host_quiet (delete pending_implementors w).
Proof.
  cbv zeta.
  assert (H : no_controller
    ({[ pending_implementors := VObject {[ "alloc" := VArray [] ]} ]} : global))
    by (vm_compute; reflexivity).
  assert (Hold :
    ({[ pending_implementors := VObject {[ "alloc" := VArray [] ]} ]} : global)
      !! pending_implementors = Some (VObject {[ "alloc" := VArray [] ]}))
    by (vm_compute; reflexivity).
  destruct (stash_overwrites host_quiet _ _ H Hold) as (_ & Hs & Hi & _).
  exact (conj H (conj Hold (conj Hs Hi))).
Defined.

(** ** What a run leaves alone *)

(** C6, as stated, fails on the direct path: what the called function does
    to the page is done during the run.  A recording controller leaves a
    property that was not there, and one that unregisters itself leaves the
    page without the reference. *)
Lemma frame_fails_with_mutating_controller :
  let w : global := {[ register_implementors := VFunction 1 ]} in
  final host_recording w !! "last_received" ≠ w !! "last_received"
  ∧ final host_unregistering w !! register_implementors
    ≠ w !! register_implementors.
Proof.
  cbv zeta.
  assert (Hr : read_prop ({[register_implementors := VFunction 1]} : global)
                 register_implementors = VFunction 1).
  { unfold read_prop. by rewrite lookup_singleton_eq. }
  unfold final. rewrite !(run_call _ _ _ Hr). cbn.
  rewrite lookup_delete_eq, !lookup_insert_eq.
  by rewrite lookup_insert_ne, lookup_empty.
Qed.

(** C6 (amended): of its own, the script reads [register_implementors] and
    never writes it; the only property it writes, if any, is the slot.  When
    it stashes, every other property of the global object is as before; when
    it stops on the type error, the global object is the initial one; when
    it calls the stored function, the global object after the run is the one
    that call left, the script having written nothing before or after it. *)
Theorem fragment_frame host w :
  register_implementors ∈ reads (actions host w)
  ∧ Forall (λ kv, kv.1 = pending_implementors) (writes (actions host w))
  ∧ Forall (λ kv, kv.1 ≠ register_implementors) (writes (actions host w))
  ∧ match read_prop w register_implementors with
    | VFunction f => final host w = (host f [VObject implementors] w).2
    | v =>
        if to_boolean v then final host w = w
        else
          final host w = <[pending_implementors:=VObject implementors]> w
          ∧ final host w !! register_implementors = w !! register_implementors
          ∧ ∀ k, k ≠ pending_implementors → final host w !! k = w !! k
    end.
Proof.
  unfold final, actions.
  destruct (reference_cases w) as [H|[[f H]|[Ht Hf]]].
  - rewrite (run_stash _ _ H). unfold no_controller in H. cbn.
    split_and!.
    + apply list_elem_of_here.
    + by repeat constructor.
    + repeat constructor. cbn. by intros ?%symmetry%names_differ.
    + assert (Hframe : ∀ k, k ≠ pending_implementors →
        (<[pending_implementors:=VObject implementors]> w) !! k = w !! k).
      { intros k Hk. by rewrite lookup_insert_ne. }
      destruct (read_prop w register_implementors);
        cbn [to_boolean] in H |- *; try discriminate; rewrite ?H;
        (split_and!; [done|apply Hframe, names_differ|done]).
  - rewrite (run_call _ _ _ H), H. cbv zeta.
    destruct (host f [VObject implementors] w) as [[?|?] ?]; cbn;
      (split_and!; [apply list_elem_of_here|constructor|constructor|done]).
  - rewrite (run_type_error _ _ Ht Hf). cbn.
    split_and!; [apply list_elem_of_here|constructor|constructor|].
    destruct (read_prop w register_implementors);
      cbn [to_boolean] in Ht |- *; try discriminate; by rewrite ?Ht.
Qed.

(** ** Errors *)


(** An exception of the called function is not caught: it ends the run. *)
Lemma fragment_passes_on_controller_exception w f :
  controller_is w f →
  outcome host_throwing w = Throw (Raised (VString "render failed")).
Proof.
  intros H%controller_is_read. unfold outcome. by rewrite (run_call _ _ _ H).
Qed.



(** C8, as stated, fails: a stored function that throws meets the
    precondition, and the run ends with its exception. *)
Lemma fragment_unsafe_with_throwing_controller :
  let w : global := {[ register_implementors := VFunction 2 ]} in
  reference_ok w = true
  ∧ outcome host_throwing w = Throw (Raised (VString "render failed"))
  ∧ outcome host_throwing w ≠ Normal VUndefined.
Proof.
  cbv zeta.
  assert (Hr : read_prop ({[register_implementors := VFunction 2]} : global)
                 register_implementors = VFunction 2).
  { unfold read_prop. by rewrite lookup_singleton_eq. }
  unfold reference_ok, outcome. rewrite (run_call _ _ _ Hr), Hr. by cbn.
Qed.

(** C8 (amended): on every page whose [register_implementors] is missing,
    falsy or a function, the run is one of the three rules of [hands_off]
    that are not the type error: the script never applies a value that is
    no function, and a call, if any, is of the stored function.  The run
    ends normally whenever that call returns; the one exception that can
    leave it is an exception of the called function. *)
Theorem fragment_safe_when_reference_ok host w :
  reference_ok w = true →
  (call_returns host w = true → outcome host w = Normal VUndefined)
  ∧ hands_off host w (actions host w) (outcome host w) (final host w)
  ∧ (∀ v, outcome host w ≠ Throw (NotAFunction v))
  ∧ Forall (λ c, read_prop w register_implementors = VFunction c.1)
      (calls (actions host w))
  ∧ (outcome host w = Normal VUndefined
     ∨ ∃ f e, read_prop w register_implementors = VFunction f
         ∧ (host f [VObject implementors] w).1 = Threw e
         ∧ outcome host w = Throw (Raised e)).
Proof.
  intros Hok.
  assert (Hrel := run_hands_off host w).
  unfold call_returns, outcome, actions in *.
  destruct (reference_ok_cases w Hok) as [H|[f H]].
  - rewrite (run_stash _ _ H) in *. cbn.
    split_and!; [done|done|done|constructor|by left].
  - rewrite (run_call _ _ _ H) in *. rewrite H. cbv zeta in *.
    destruct (host f [VObject implementors] w) as [[r|e] w'] eqn:Hh; cbn in *.
    + split_and!; [done|done|done|by repeat constructor|by left].
    + split_and!; [done|done|done|by repeat constructor|].
      right. exists f, e. by rewrite Hh.
Qed.

Lemma fragment_safe_when_reference_ok_witness :
  let w : global := {[ register_implementors := VFunction 2 ]} in
  reference_ok w = true
  ∧ call_returns host_recording w = true
  ∧ outcome host_recording w = Normal VUndefined
  ∧ (∀ v, outcome host_recording w ≠ Throw (NotAFunction v))
  ∧ Forall (λ c, read_prop w register_implementors = VFunction c.1)
      (calls (actions host_recording w)).
Proof.
  cbv zeta.
  assert (Hok : reference_ok
    ({[ register_implementors := VFunction 2 ]} : global) = true)
    by (vm_compute; reflexivity).
  assert (Hret : call_returns host_recording
    ({[ register_implementors := VFunction 2 ]} : global) = true)
    by (vm_compute; reflexivity).
  destruct (fragment_safe_when_reference_ok host_recording _ Hok)
    as (Hn & _ & Hne & Hc & _).
  exact (conj Hok (conj Hret (conj (Hn Hret) (conj Hne Hc)))).
Defined.

(** ** Truthiness decides *)

Lemma falsy_examples :
  Forall (λ v, to_boolean v = false)
    [VUndefined; VNull; VBool false; VNumber 0; VNaN; VString ""].
Proof. by repeat constructor. Qed.

(** C9: when [register_implementors] is defined and holds a falsy value,
    the run takes the deferred path: it writes the constructed object to
    the slot, calls nothing, and ends normally. *)
Theorem falsy_reference_defers host w v :
  w !! register_implementors = Some v →
  to_boolean v = false →
  writes (actions host w) = [(pending_implementors, VObject implementors)]
  ∧ calls (actions host w) = []
  ∧ final host w !! pending_implementors = Some (VObject implementors)
  ∧ outcome host w = Normal VUndefined.
Proof.
  intros Hv Hf.
  assert (H : no_controller w).
  { unfold no_controller, read_prop. by rewrite Hv. }
  unfold actions, final, outcome. rewrite (run_stash _ _ H). cbn.
  by rewrite lookup_insert_eq.
Qed.

Lemma falsy_reference_defers_witness :
  Forall (λ v,
    let w : global := {[ register_implementors := v ]} in
    w !! register_implementors = Some v
    ∧ to_boolean v = false
    ∧ writes (actions host_throwing w)
      = [(pending_implementors, VObject implementors)]
    ∧ calls (actions host_throwing w) = []
    ∧ final host_throwing w !! pending_implementors
      = Some (VObject implementors)
    ∧ outcome host_throwing w = Normal VUndefined)
    [VNull; VBool false; VNumber 0; VString ""].
Proof.
  repeat apply Forall_cons_2; try apply Forall_nil_2; cbv zeta;
    match goal with
    | |- ?L ∧ ?F ∧ _ =>
        assert (Hl : L) by (vm_compute; reflexivity);
        assert (Hf : F) by (vm_compute; reflexivity);
        exact (conj Hl (conj Hf
                 (falsy_reference_defers host_throwing _ _ Hl Hf)))
    end.
Defined.

(** ** Determinism *)




(** * Further properties of the script *)

(** ** The type error *)

(** X1: the run ends with the type error of line 5 exactly when the value
    stored under [register_implementors] is truthy and no function; it
    then stops after the two reads, with the global object as it was:
    nothing called, nothing stashed. *)
Theorem type_error_iff host w :
  (reference_ok w = false
   ↔ outcome host w
     = Throw (NotAFunction (read_prop w register_implementors)))
  ∧ ((∃ v, outcome host w = Throw (NotAFunction v)) →
     final host w = w
     ∧ actions host w
       = [Read register_implementors; Read register_implementors]).
Proof.
  unfold reference_ok, outcome, final, actions.
  destruct (reference_cases w) as [H|[[f H]|[Ht Hf]]].
  - rewrite (run_stash _ _ H). unfold no_controller in H. rewrite H. cbn.
    split; [split; discriminate|]. by intros [? ?].
  - rewrite (run_call _ _ _ H), H. cbv zeta.
    destruct (host f [VObject implementors] w) as [[?|?] ?]; cbn;
      (split; [split; discriminate|]); by intros [? ?].
  - rewrite (run_type_error _ _ Ht Hf), Ht, Hf. by cbn.
Qed.

(** X2: no run hands off twice, whatever is stored: the calls and the
    writes of a run number at most one together. *)
Theorem at_most_one_hand_off host w :
  (length (calls (actions host w)) + length (writes (actions host w)) ≤ 1)%nat.
Proof.
  unfold actions.
  destruct (reference_cases w) as [H|[[f H]|[Ht Hf]]].
  - rewrite (run_stash _ _ H). cbn. lia.
  - rewrite (run_call _ _ _ H). cbv zeta.
    destruct (host f [VObject implementors] w) as [[?|?] ?]; cbn; lia.
  - rewrite (run_type_error _ _ Ht Hf). cbn. lia.
Qed.

(** ** Which path was taken *)


(** X4: an exception of the called function is not caught and there is no
    fallback: the run ends with that exception, the slot is not written, and
    the global object is the one the call left. *)
Theorem controller_exception_not_caught host w f e :
  controller_is w f →
  (host f [VObject implementors] w).1 = Threw e →
  outcome host w = Throw (Raised e)
  ∧ calls (actions host w) = [(f, [VObject implementors])]
  ∧ writes (actions host w) = []
  ∧ final host w = (host f [VObject implementors] w).2.
Proof.
  intros H%controller_is_read Hthrow. unfold outcome, actions, final.
  rewrite (run_call _ _ _ H). cbv zeta.
  destruct (host f [VObject implementors] w) as [[r|e'] w']; cbn in *;
    [discriminate|].
  by injection Hthrow as ->.
Qed.

Lemma controller_exception_not_caught_witness :
  let w : global := {[ register_implementors := VFunction 4 ]} in
  controller_is w 4
  ∧ (host_throwing 4 [VObject implementors] w).1
    = Threw (VString "render failed")
  ∧ outcome host_throwing w = Throw (Raised (VString "render failed"))
  ∧ writes (actions host_throwing w) = [].
Proof.
  cbv zeta.
  assert (H : controller_is {[ register_implementors := VFunction 4 ]} 4)
    by (vm_compute; reflexivity).
  assert (Ht : (host_throwing 4 [VObject implementors]
                  {[ register_implementors := VFunction 4 ]}).1
               = Threw (VString "render failed")) by reflexivity.
  destruct (controller_exception_not_caught host_throwing _ 4 _ H Ht)
    as (Ho & _ & Hw & _).
  exact (conj H (conj Ht (conj Ho Hw))).
Defined.

(** X5: the run ends normally exactly when the stored value is missing,
    falsy or a function whose call returns; and what that call returns is
    dropped: the value of a normal run is always [undefined]. *)
Theorem normal_completion_iff host w :
  (outcome host w = Normal VUndefined
   ↔ reference_ok w = true ∧ call_returns host w = true)
  ∧ ∀ v, outcome host w = Normal v → v = VUndefined.
Proof.
  unfold reference_ok, call_returns, outcome.
  destruct (reference_cases w) as [H|[[f H]|[Ht Hf]]].
  - rewrite (run_stash _ _ H). unfold no_controller in H. rewrite H. cbn.
    split; [|by intros v [= <-]].
    split; [|done]. intros _. split; [done|].
    by destruct (read_prop w register_implementors).
  - rewrite (run_call _ _ _ H), H. cbv zeta.
    destruct (host f [VObject implementors] w) as [[r|e] w']; cbn.
    + split; [done|]. by intros v [= <-].
    + split; [|done]. split; [done|]. by intros [_ ?].
  - rewrite (run_type_error _ _ Ht Hf), Ht, Hf. cbn.
    split; [|done]. split; [done|]. by intros [? _].
Qed.

(** ** Runs one after another *)

Lemma read_reference_after_stash w v :
  read_prop (<[pending_implementors:=v]> w) register_implementors
  = read_prop w register_implementors.
Proof.
  unfold read_prop.
  by rewrite lookup_insert_ne by (symmetry; apply names_differ).
Qed.

(** X6: stashing twice is stashing once: after a run that found nothing
    truthy stored, a second run finds the same, performs the same actions
    and leaves the global object as the first did. *)
Theorem stash_idempotent host w :
  no_controller w →
  no_controller (final host w)
  ∧ actions host (final host w) = actions host w
  ∧ final host (final host w) = final host w.
Proof.
  intros H.
  assert (H' : no_controller
                 (<[pending_implementors:=VObject implementors]> w)).
  { unfold no_controller in *. by rewrite read_reference_after_stash. }
  unfold final, actions.
  rewrite (run_stash _ _ H). cbn. rewrite (run_stash _ _ H'). cbn.
  by rewrite insert_insert_eq.
Qed.

Lemma stash_idempotent_witness :
  let w : global := {[ register_implementors := VNull ]} in
  no_controller w
  ∧ no_controller (final host_quiet w)
  ∧ actions host_quiet (final host_quiet w) = actions host_quiet w
  ∧ final host_quiet (final host_quiet w) = final host_quiet w.
Proof.
  cbv zeta.
  assert (H : no_controller {[ register_implementors := VNull ]})
    by (vm_compute; reflexivity).
  exact (conj H (stash_idempotent host_quiet _ H)).
Defined.

(** X7: the order of loading does not change what is delivered.  What a run
    stashes when nothing truthy is stored is the very argument a run passes
    once a function has been stored there, be it on the page as it was or on
    the page the first run left; in the latter case the stashed value is
    still in the slot for the function to find, unless its own call changes
    it. *)
Theorem stash_is_call_argument host w f :
  no_controller w →
  ∃ v,
    final host w !! pending_implementors = Some v
    ∧ calls (actions host (<[register_implementors:=VFunction f]> w))
      = [(f, [v])]
    ∧ calls (actions host
               (<[register_implementors:=VFunction f]> (final host w)))
      = [(f, [v])]
    ∧ (<[register_implementors:=VFunction f]> (final host w))
        !! pending_implementors = Some v.
Proof.
  intros H. exists (VObject implementors).
  assert (Hr : ∀ w' : global,
    read_prop (<[register_implementors:=VFunction f]> w')
      register_implementors = VFunction f).
  { intros w'. unfold read_prop. by rewrite lookup_insert_eq. }
  unfold final, actions at 1.
  rewrite (run_stash _ _ H). cbn [snd window].
  unfold actions. rewrite !(run_call _ _ _ (Hr _)). cbv zeta.
  split_and!.
  - by rewrite lookup_insert_eq.
  - by destruct (host f [VObject implementors] _) as [[?|?] ?].
  - by destruct (host f [VObject implementors] _) as [[?|?] ?].
  - rewrite lookup_insert_ne by apply names_differ.
    by rewrite lookup_insert_eq.
Qed.

Lemma stash_is_call_argument_witness :
  no_controller ∅
  ∧ ∃ v,
      final host_recording ∅ !! pending_implementors = Some v
      ∧ calls (actions host_recording (<[register_implementors:=VFunction 1]> ∅))
        = [(1, [v])]
      ∧ calls (actions host_recording
                 (<[register_implementors:=VFunction 1]> (final host_recording ∅)))
        = [(1, [v])]
      ∧ (<[register_implementors:=VFunction 1]> (final host_recording ∅))
          !! pending_implementors = Some v.
Proof.
  assert (H : no_controller ∅) by (vm_compute; reflexivity).
  exact (conj H (stash_is_call_argument host_recording ∅ 1 H)).
Defined.

(** ** What the script looks at *)

(** X8: the only property a run ever reads is [register_implementors], and
    it reads it at most twice; in particular the slot is written without
    being read first. *)
Theorem reads_only_reference host w :
  Forall (λ k, k = register_implementors) (reads (actions host w))
  ∧ (pending_implementors ∉ reads (actions host w))
  ∧ (1 ≤ length (reads (actions host w)))%nat
  ∧ (length (reads (actions host w)) ≤ 2)%nat.
Proof.
  assert (Hnot : ∀ l : list string,
    Forall (λ k, k = register_implementors) l → pending_implementors ∉ l).
  { intros l Hl Hin. rewrite Forall_forall in Hl.
    by apply Hl, symmetry, names_differ in Hin. }
  unfold actions.
  destruct (reference_cases w) as [H|[[f H]|[Ht Hf]]].
  - rewrite (run_stash _ _ H). cbn.
    split_and!; [by repeat constructor|apply Hnot; by repeat constructor|lia|lia].
  - rewrite (run_call _ _ _ H). cbv zeta.
    destruct (host f [VObject implementors] w) as [[?|?] ?]; cbn;
      (split_and!;
        [by repeat constructor|apply Hnot; by repeat constructor|lia|lia]).
  - rewrite (run_type_error _ _ Ht Hf). cbn.
    split_and!; [by repeat constructor|apply Hnot; by repeat constructor|lia|lia].
Qed.

(** X9: what a run does is decided by the value stored under
    [register_implementors] and by nothing else: on two pages that agree
    there, whatever else they hold and whatever their functions do, the
    runs perform the same actions, and one stops on the type error exactly
    when the other does. *)
Theorem actions_depend_on_reference_only host1 host2 w1 w2 :
  read_prop w1 register_implementors = read_prop w2 register_implementors →
  actions host1 w1 = actions host2 w2
  ∧ reference_ok w1 = reference_ok w2
  ∧ ((∃ v, outcome host1 w1 = Throw (NotAFunction v))
     ↔ (∃ v, outcome host2 w2 = Throw (NotAFunction v))).
Proof.
  intros Heq. split; [by apply same_reference_same_actions|].
  split; [unfold reference_ok; by rewrite Heq|].
  unfold outcome.
  destruct (reference_cases w1) as [H|[[f H]|[Ht Hf]]].
  - rewrite (run_stash _ _ H).
    unfold no_controller in H. rewrite Heq in H. rewrite (run_stash _ _ H).
    done.
  - rewrite (run_call _ _ _ H). rewrite Heq in H. rewrite (run_call _ _ _ H).
    cbv zeta.
    destruct (host1 _ _ w1) as [[?|?] ?], (host2 _ _ w2) as [[?|?] ?]; cbn;
      split; intros [? ?]; discriminate.
  - rewrite (run_type_error _ _ Ht Hf). rewrite Heq in Ht, Hf.
    rewrite (run_type_error _ _ Ht Hf). cbn. split; eauto.
Qed.

Lemma actions_depend_on_reference_only_witness :
  let w1 : global := {[ register_implementors := VFunction 3 ]} in
  let w2 : global :=
    <[pending_implementors:=VString "stale"]>
      (<["other":=VNumber 9]> {[ register_implementors := VFunction 3 ]}) in
  read_prop w1 register_implementors = read_prop w2 register_implementors
  ∧ actions host_quiet w1 = actions host_throwing w2.
Proof.
  cbv zeta.
  assert (H :
    read_prop ({[ register_implementors := VFunction 3 ]} : global)
      register_implementors
    = read_prop
        (<[pending_implementors:=VString "stale"]>
           (<["other":=VNumber 9]>
              ({[ register_implementors := VFunction 3 ]} : global)))
        register_implementors) by (vm_compute; reflexivity).
  exact (conj H
    (proj1 (actions_depend_on_reference_only host_quiet host_throwing _ _ H))).
Defined.
